(** * The app catalogue view (src/App.jsx): state, search filter, rendering

    A shallow embedding of the [App] component and of [AppCard],
    [AppDetailsModal] and [InfoRow].  The
    React state of [App] is a record of its five [useState] cells; the
    subscription callbacks and the UI handlers are functions on that
    record; the JSX returned by a component is a record with one field
    per conditional region of the markup.

    Modelling conventions.
    - A JS string is a [string], the sequence of the bytes of its UTF-8
      form; on well-formed text a string occurs in another as a run of
      bytes exactly when it does as a run of UTF-16 units.
    - [String.prototype.toLowerCase] is built into the language and
      follows the Unicode tables; it is a parameter of the development
      (class [Js.CaseFold]), known only to keep the empty string and no
      other string empty.  Nothing below assumes more of it.
    - An optional field of a catalogue record is an [option]; [None] is
      the JS [undefined] of a field the stored document does not have.
      Fields carry the types the data model gives them ([name] and
      [category] are strings, [downloads] and [size] are integer counts);
      a stored document may carry a field named [id] of its own.
    - Nothing in the component mutates a record after it was built, so
      records are plain values: holding a record and holding a reference
      to it cannot be told apart. *)

From Stdlib Require Import ZArith Ascii String List Bool DecimalString.
From stdpp Require Import base list strings.
Import ListNotations.
Local Open Scope string_scope.
Local Open Scope Z_scope.

(** ** Strings *)

Module Js.

(** [String.prototype.toLowerCase], as far as the component relies on it. *)
Class CaseFold := {
  toLowerCase : string -> string;
  toLowerCase_of_empty : toLowerCase "" = "";
  toLowerCase_stays_non_empty : forall s, toLowerCase s = "" -> s = ""
}.

(** The case mapping of the letters [A]-[Z]; every other byte stays. *)
Definition ascii_lower (c : ascii) : ascii :=
  let n := nat_of_ascii c in
  if ((65 <=? n) && (n <=? 90))%nat then ascii_of_nat (n + 32) else c.

(** What [toLowerCase] does to a text made of ASCII characters. *)
Fixpoint ascii_toLowerCase (s : string) : string :=
  match s with
  | EmptyString => EmptyString
  | String c rest => String (ascii_lower c) (ascii_toLowerCase rest)
  end.

(** The instance the examples on ASCII texts are run with. *)
#[global] Instance ascii_fold : CaseFold.
Proof.
  refine (Build_CaseFold ascii_toLowerCase _ _).
  - reflexivity.
  - intros [|c s]; [reflexivity | discriminate].
Defined.

(** [s.startsWith(t)]. *)
Fixpoint startsWith (s t : string) {struct t} : bool :=
  match t, s with
  | EmptyString, _ => true
  | String _ _, EmptyString => false
  | String b t', String a s' => if Ascii.eqb a b then startsWith s' t' else false
  end.

(** [String.prototype.includes]: [t] occurs in [s] at some position. *)
Fixpoint includes (s t : string) : bool :=
  if startsWith s t then true
  else match s with
       | EmptyString => false
       | String _ rest => includes rest t
       end.

(** Truthiness of a string value: every string but the empty one. *)
Definition truthy (s : string) : bool :=
  match s with
  | EmptyString => false
  | String _ _ => true
  end.

(** Truthiness of a field that may be [undefined]. *)
Definition truthy_field (f : option string) : bool :=
  match f with
  | Some s => truthy s
  | None => false
  end.

End Js.

(** ** Catalogue records *)

(** The fields a stored document may carry ([doc.data()]). *)
Record DocData := {
  d_id : option string;            (* a stored field that happens to be named id *)
  d_name : option string;
  d_category : option string;
  d_version : option string;
  d_size : option Z;
  d_downloads : option Z;
  d_description : option string;
  d_icon_url : option string;
  d_screenshot_urls : option (list string);
  d_apk_url : option string;
  d_developer_id : option string;
  d_created_at : option Z          (* created_at.seconds *)
}.

(** One element of [snapshot.docs]. *)
Record Doc := {
  doc_id : string;
  doc_data : DocData
}.

(** The objects kept in [apps]. *)
Record AppRecord := {
  id : string;
  name : option string;
  category : option string;
  version : option string;
  size : option Z;
  downloads : option Z;
  description : option string;
  icon_url : option string;
  screenshot_urls : option (list string);
  apk_url : option string;
  developer_id : option string;
  created_at : option Z
}.

(** [doc => ({ id: doc.id, ...doc.data() })]: the spread comes last, so
    a stored field named [id] takes the place of [doc.id]. *)
Definition mapDoc (doc : Doc) : AppRecord :=
  let d := doc_data doc in
  {| id := match d_id d with
           | Some stored => stored
           | None => doc_id doc
           end;
     name := d_name d;
     category := d_category d;
     version := d_version d;
     size := d_size d;
     downloads := d_downloads d;
     description := d_description d;
     icon_url := d_icon_url d;
     screenshot_urls := d_screenshot_urls d;
     apk_url := d_apk_url d;
     developer_id := d_developer_id d;
     created_at := d_created_at d |}.

(** ** The search filter *)

(** [field && field.toLowerCase().includes(searchTerm.toLowerCase())],
    read as a boolean. *)
Definition field_matches {fold : Js.CaseFold}
    (field : option string) (searchTerm : string) : bool :=
  match field with
  | Some s =>
      if Js.truthy s
      then Js.includes (Js.toLowerCase s) (Js.toLowerCase searchTerm)
      else false
  | None => false
  end.

(** The callback handed to [apps.filter]. *)
Definition app_matches {fold : Js.CaseFold} (searchTerm : string) (app : AppRecord) : bool :=
  field_matches (name app) searchTerm || field_matches (category app) searchTerm.

(** [const filteredApps = apps.filter(app => ...)]. *)
Definition filteredApps {fold : Js.CaseFold} (apps : list AppRecord) (searchTerm : string)
  : list AppRecord :=
  List.filter (app_matches searchTerm) apps.

(** ** Component state *)

(** The five [useState] cells of [App]. *)
Record State := {
  apps : list AppRecord;
  loading : bool;
  error : option string;           (* null, or the message of a failure *)
  searchTerm : string;
  selectedApp : option AppRecord   (* null, or the record of the clicked card *)
}.

(** The arguments of the [useState] calls. *)
Definition initial_state : State :=
  {| apps := []; loading := true; error := None;
     searchTerm := ""; selectedApp := None |}.

Definition setApps (v : list AppRecord) (st : State) : State :=
  {| apps := v; loading := loading st; error := error st;
     searchTerm := searchTerm st; selectedApp := selectedApp st |}.

Definition setLoading (v : bool) (st : State) : State :=
  {| apps := apps st; loading := v; error := error st;
     searchTerm := searchTerm st; selectedApp := selectedApp st |}.

Definition setError (v : option string) (st : State) : State :=
  {| apps := apps st; loading := loading st; error := v;
     searchTerm := searchTerm st; selectedApp := selectedApp st |}.

Definition setSearchTerm (v : string) (st : State) : State :=
  {| apps := apps st; loading := loading st; error := error st;
     searchTerm := v; selectedApp := selectedApp st |}.

Definition setSelectedApp (v : option AppRecord) (st : State) : State :=
  {| apps := apps st; loading := loading st; error := error st;
     searchTerm := searchTerm st; selectedApp := v |}.

(** ** Subscription callbacks and UI handlers *)

(** The first callback of [onSnapshot]; [docs] is [snapshot.docs]. *)
Definition on_snapshot (docs : list Doc) (st : State) : State :=
  let appsData := map mapDoc docs in
  setLoading false (setApps appsData st).

(** The second callback of [onSnapshot]; [message] is [err.message].
    The [catch] arm of the effect makes the same two calls. *)
Definition on_error (message : string) (st : State) : State :=
  setLoading false (setError (Some message) st).

(** [onChange] of either search input. *)
Definition on_search_change (value : string) (st : State) : State :=
  setSearchTerm value st.

(** [onClick] of the card of [app]. *)
Definition on_card_click (app : AppRecord) (st : State) : State :=
  setSelectedApp (Some app) st.

(** [onClose] of the details modal. *)
Definition on_close (st : State) : State :=
  setSelectedApp None st.

(** What can happen to a mounted [App]. *)
Inductive Event :=
| Snapshot (docs : list Doc)
| SubscriptionError (message : string)
| SearchChange (value : string)
| CardClick (app : AppRecord)
| ModalClose.

Definition step (st : State) (ev : Event) : State :=
  match ev with
  | Snapshot docs => on_snapshot docs st
  | SubscriptionError message => on_error message st
  | SearchChange value => on_search_change value st
  | CardClick app => on_card_click app st
  | ModalClose => on_close st
  end.

(** The state after a sequence of events, oldest first. *)
Definition run (st : State) (evs : list Event) : State :=
  fold_left step evs st.

(** The events that come from the subscription or the search box, as
    opposed to the two that set [selectedApp]. *)
Definition keeps_selection (ev : Event) : bool :=
  match ev with
  | Snapshot _ | SubscriptionError _ | SearchChange _ => true
  | CardClick _ | ModalClose => false
  end.

(** ** What [App] returns *)

(** [<AppCard key={app.id} app={app} onClick={...} />]; the click handler
    is [on_card_click card_app]. *)
Record CardElement := {
  card_key : string;
  card_app : AppRecord
}.

Definition card_element (app : AppRecord) : CardElement :=
  {| card_key := id app; card_app := app |}.

(** The two arms of [loading ? ... : ...]. *)
Inductive MainBody :=
| Spinner
| Grid (cards : list CardElement).

Record AppView := {
  search_value : string;               (* value={searchTerm}, both inputs *)
  apps_available : nat;                (* {filteredApps.length} Apps Available *)
  error_banner : option string;        (* error && <div>...{error}</div> *)
  main_body : MainBody;
  empty_state : bool;                  (* "No apps found" *)
  details_modal : option AppRecord     (* the [app] prop of AppDetailsModal *)
}.

(** The [return] of [App]. *)
Definition App {fold : Js.CaseFold} (st : State) : AppView :=
  let filteredApps := filteredApps (apps st) (searchTerm st) in
  {| search_value := searchTerm st;
     apps_available := length filteredApps;
     error_banner :=
       match error st with
       | Some message => if Js.truthy message then Some message else None
       | None => None
       end;
     main_body :=
       if loading st then Spinner else Grid (map card_element filteredApps);
     empty_state :=
       negb (loading st) && (length filteredApps =? 0)%nat;
     details_modal := selectedApp st |}.

(** The view without the two search inputs: counter, banner, spinner or
    grid, empty-state message, modal. *)
Definition content (v : AppView)
  : nat * option string * MainBody * bool * option AppRecord :=
  (apps_available v, error_banner v, main_body v, empty_state v, details_modal v).

(** The values the content is drawn from. *)
Definition render_inputs {fold : Js.CaseFold} (st : State)
  : list AppRecord * bool * option string * option AppRecord :=
  (filteredApps (apps st) (searchTerm st), loading st, error st, selectedApp st).

(** ** Number formatting (./utils) *)

Module Utils.

(** Modelled from the spec: the digit grouping of [formatNumber] below.
    Reversed digits in, reversed digits with separators out; [k] digits
    remain in the current group. *)
Fixpoint separate (k : nat) (rev_digits : list ascii) : list ascii :=
  match rev_digits with
  | [] => []
  | d :: rest =>
      match k with
      | O => ","%char :: d :: separate 2 rest
      | S k' => d :: separate k' rest
      end
  end.

(** Modelled from the spec: [formatNumber] is imported from ./utils,
    whose code is missing.  The spec calls its result a
    locale-formatted count and gives 12000 as "12,000": decimal digits
    in groups of three, separated by commas. *)
Definition formatNumber (n : Z) : string :=
  let digits := list_ascii_of_string (NilZero.string_of_uint (N.to_uint (Z.abs_N n))) in
  let grouped := string_of_list_ascii (rev (separate 3 (rev digits))) in
  if n <? 0 then String "-"%char grouped else grouped.

End Utils.

(** ** What [AppCard] returns *)

(** [field || fallback] on a string field. *)
Definition or_else (field : option string) (fallback : string) : string :=
  match field with
  | Some s => if Js.truthy s then s else fallback
  | None => fallback
  end.

(** [app.downloads > 0]; [undefined > 0] is false. *)
Definition downloads_positive (d : option Z) : bool :=
  match d with
  | Some n => 0 <? n
  | None => false
  end.

(** [app.downloads > 0 ? `${formatNumber(app.downloads)} downloads` : 'New Release']. *)
Definition downloads_text (d : option Z) : string :=
  match d with
  | Some n => if 0 <? n then Utils.formatNumber n +:+ " downloads" else "New Release"
  | None => "New Release"
  end.

Record CardView := {
  cv_icon : string;            (* src of the icon *)
  cv_alt : option string;      (* alt of the icon *)
  cv_title : string;
  cv_category : string;
  cv_version : string;
  cv_size : string;
  cv_description : string;
  cv_downloads : string
}.

Section Card.

(** [formatBytes] of ./utils; App.jsx only calls it. *)
Variable formatBytes : option Z -> string.

Definition AppCard (app : AppRecord) : CardView :=
  let iconUrl := or_else (icon_url app) "https://uiapp.store/placeholder-icon.png" in
  {| cv_icon := iconUrl;
     cv_alt := name app;
     cv_title := or_else (name app) "Untitled App";
     cv_category := or_else (category app) "Utility";
     cv_version := "v" +:+ or_else (version app) "1.0";
     cv_size := formatBytes (size app);
     cv_description :=
       or_else (description app) "No description available for this application.";
     cv_downloads := downloads_text (downloads app) |}.

End Card.

(** ** Vocabulary of the properties *)

(** The spec's "[field] (case-insensitively) contains [query]": the
    field is present and the lower-cased query occurs in its lower-cased
    text. *)
Definition contains_ci {fold : Js.CaseFold} (field : option string) (query : string) : Prop :=
  exists s, field = Some s /\
    exists before after,
      Js.toLowerCase s = before +:+ Js.toLowerCase query +:+ after.

(** ** Sample data *)

(** A record nobody can search for: neither name nor category. *)
Definition untitled (i : string) : AppRecord :=
  {| id := i; name := None; category := None; version := None; size := None;
     downloads := None; description := None; icon_url := None;
     screenshot_urls := None; apk_url := None; developer_id := None;
     created_at := None |}.

(** The catalogue of the spec's first scenario. *)
Definition calculator_doc : Doc :=
  {| doc_id := "1";
     doc_data := {| d_id := None; d_name := Some "Calculator"; d_category := Some "Tools";
                    d_version := None; d_size := None; d_downloads := None;
                    d_description := None; d_icon_url := None;
                    d_screenshot_urls := None; d_apk_url := None;
                    d_developer_id := None; d_created_at := None |} |}.

Definition player_doc : Doc :=
  {| doc_id := "2";
     doc_data := {| d_id := None; d_name := Some "Player"; d_category := Some "Music";
                    d_version := Some "2.1"; d_size := Some 52428800;
                    d_downloads := Some 12000;
                    d_description := None; d_icon_url := None;
                    d_screenshot_urls := None; d_apk_url := None;
                    d_developer_id := None; d_created_at := None |} |}.

(** The stored fields [d] with another field named id. *)
Definition with_stored_id (i : option string) (d : DocData) : DocData :=
  {| d_id := i; d_name := d_name d; d_category := d_category d;
     d_version := d_version d; d_size := d_size d; d_downloads := d_downloads d;
     d_description := d_description d; d_icon_url := d_icon_url d;
     d_screenshot_urls := d_screenshot_urls d; d_apk_url := d_apk_url d;
     d_developer_id := d_developer_id d; d_created_at := d_created_at d |}.

(** Both documents have arrived. *)
Definition two_apps_loaded : State :=
  on_snapshot [calculator_doc; player_doc] initial_state.

(** [app] with another [downloads] field. *)
Definition with_downloads (d : option Z) (app : AppRecord) : AppRecord :=
  {| id := id app; name := name app; category := category app;
     version := version app; size := size app; downloads := d;
     description := description app; icon_url := icon_url app;
     screenshot_urls := screenshot_urls app; apk_url := apk_url app;
     developer_id := developer_id app; created_at := created_at app |}.

(** ** What [InfoRow] and [AppDetailsModal] return *)

(** The icons handed to [InfoRow]. *)
Inductive Icon := Calendar | ShieldCheck | LayoutGrid.

(** The return of [InfoRow]: icon, label and value as they were given;
    an [undefined] value leaves the value span empty. *)
Record InfoRowView := {
  ir_icon : Icon;
  ir_label : string;
  ir_value : option string
}.

Definition InfoRow (icon : Icon) (label : string) (value : option string) : InfoRowView :=
  {| ir_icon := icon; ir_label := label; ir_value := value |}.

(** One [<img>] of the screenshots gallery. *)
Record ScreenshotView := {
  shot_key : nat;
  shot_src : string;
  shot_alt : string
}.

(** [`Screenshot ${index + 1}`]. *)
Definition screenshot_alt (index : nat) : string :=
  "Screenshot " +:+ NilZero.string_of_uint (Nat.to_uint (index + 1)).

(** [app.screenshot_urls.map((url, index) => <img key={index} src={url} alt=... />)]. *)
Definition screenshot_images (urls : list string) : list ScreenshotView :=
  imap (fun index url =>
          {| shot_key := index; shot_src := url; shot_alt := screenshot_alt index |})
       urls.

(** [app.screenshot_urls && app.screenshot_urls.length > 0 && <section>...]:
    an array, even an empty one, is truthy. *)
Definition screenshots_section (urls : option (list string)) : option (list ScreenshotView) :=
  match urls with
  | Some l => if (0 <? length l)%nat then Some (screenshot_images l) else None
  | None => None
  end.

Record ModalView := {
  md_icon : string;                (* src of the icon *)
  md_alt : option string;          (* alt of the icon *)
  md_title : option string;        (* {app.name}, without a fallback *)
  md_category : string;
  md_developer : string;
  md_downloads : string;
  md_size : string;
  md_version : string;
  md_href : option string;         (* href of the download link *)
  md_description : string;
  md_screenshots : option (list ScreenshotView);
  md_info : list InfoRowView
}.

Section Modal.

(** [formatBytes] of ./utils; App.jsx only calls it. *)
Variable formatBytes : option Z -> string.

(** What [formatNumber] of ./utils makes of [undefined]: the modal calls
    it on [app.downloads] whether or not the field is there. *)
Variable formatNumber_undefined : string.

(** [new Date(ms).toLocaleDateString()], which depends on the locale and
    the time zone of the browser. *)
Variable toLocaleDateString : Z -> string.

(** [app.created_at?.seconds ? new Date(app.created_at.seconds * 1000)
    .toLocaleDateString() : 'Recently']; the number 0 is falsy. *)
Definition releaseDate (app : AppRecord) : string :=
  match created_at app with
  | Some seconds =>
      if seconds =? 0 then "Recently" else toLocaleDateString (seconds * 1000)
  | None => "Recently"
  end.

Definition AppDetailsModal (app : AppRecord) : ModalView :=
  let iconUrl := or_else (icon_url app) "https://uiapp.store/placeholder-icon.png" in
  {| md_icon := iconUrl;
     md_alt := name app;
     md_title := name app;
     md_category := or_else (category app) "App";
     md_developer := or_else (developer_id app) "Unknown Developer";
     md_downloads :=
       match downloads app with
       | Some n => Utils.formatNumber n
       | None => formatNumber_undefined
       end;
     md_size := formatBytes (size app);
     md_version := "v" +:+ or_else (version app) "1.0";
     md_href := apk_url app;
     md_description :=
       or_else (description app) "No description available for this application.";
     md_screenshots := screenshots_section (screenshot_urls app);
     md_info :=
       [ InfoRow Calendar "Released" (Some (releaseDate app));
         InfoRow ShieldCheck "License" (Some "Free");
         InfoRow LayoutGrid "Category" (category app) ] |}.

End Modal.

(** ** More vocabulary *)

(** [app] is [doc] "mapped to its id plus its fields": it has every
    stored field of [doc], and for [id] the stored field of that name
    when there is one, the document id otherwise. *)
Definition record_of (doc : Doc) (app : AppRecord) : Prop :=
  id app = default (doc_id doc) (d_id (doc_data doc))
  /\ name app = d_name (doc_data doc)
  /\ category app = d_category (doc_data doc)
  /\ version app = d_version (doc_data doc)
  /\ size app = d_size (doc_data doc)
  /\ downloads app = d_downloads (doc_data doc)
  /\ description app = d_description (doc_data doc)
  /\ icon_url app = d_icon_url (doc_data doc)
  /\ screenshot_urls app = d_screenshot_urls (doc_data doc)
  /\ apk_url app = d_apk_url (doc_data doc)
  /\ developer_id app = d_developer_id (doc_data doc)
  /\ created_at app = d_created_at (doc_data doc).

(** The cards on screen: those of the grid, none under the spinner. *)
Definition cards_of (body : MainBody) : list CardElement :=
  match body with
  | Spinner => []
  | Grid cards => cards
  end.

(** The events that end the loading phase. *)
Definition is_sync_result (ev : Event) : bool :=
  match ev with
  | Snapshot _ | SubscriptionError _ => true
  | _ => false
  end.

Definition is_snapshot (ev : Event) : bool :=
  match ev with
  | Snapshot _ => true
  | _ => false
  end.

Definition is_failure (ev : Event) : bool :=
  match ev with
  | SubscriptionError _ => true
  | _ => false
  end.

(** While [loading] is true nothing has arrived yet. *)
Definition nothing_arrived (st : State) : Prop :=
  loading st = true -> apps st = [] /\ error st = None.

(** [app] with other [category], [created_at] and [screenshot_urls] fields. *)
Definition with_category (c : option string) (app : AppRecord) : AppRecord :=
  {| id := id app; name := name app; category := c;
     version := version app; size := size app; downloads := downloads app;
     description := description app; icon_url := icon_url app;
     screenshot_urls := screenshot_urls app; apk_url := apk_url app;
     developer_id := developer_id app; created_at := created_at app |}.

Definition with_created_at (t : option Z) (app : AppRecord) : AppRecord :=
  {| id := id app; name := name app; category := category app;
     version := version app; size := size app; downloads := downloads app;
     description := description app; icon_url := icon_url app;
     screenshot_urls := screenshot_urls app; apk_url := apk_url app;
     developer_id := developer_id app; created_at := t |}.

Definition with_screenshot_urls (u : option (list string)) (app : AppRecord) : AppRecord :=
  {| id := id app; name := name app; category := category app;
     version := version app; size := size app; downloads := downloads app;
     description := description app; icon_url := icon_url app;
     screenshot_urls := u; apk_url := apk_url app;
     developer_id := developer_id app; created_at := created_at app |}.

(** * Properties *)

Example formatNumber_examples :
  Utils.formatNumber 7 = "7" /\ Utils.formatNumber 999 = "999" /\
  Utils.formatNumber 1000 = "1,000" /\ Utils.formatNumber 1234567 = "1,234,567".
Proof. repeat split; reflexivity. Qed.


(** ** Substring search *)

Lemma startsWith_spec (s t : string) :
  Js.startsWith s t = true <-> exists rest, s = t +:+ rest.
Proof.
  revert s. induction t as [|b t IH]; intros s; simpl.
  - split; [intros _; exists s; reflexivity | reflexivity].
  - destruct s as [|a s].
    + split; [discriminate | intros [rest H]; discriminate H].
    + destruct (Ascii.eqb_spec a b) as [->|Hne].
      * rewrite IH. split; intros [rest H]; exists rest.
        -- now rewrite H.
        -- now injection H.
      * split; [discriminate|]. intros [rest H]. injection H as Hab _.
        contradiction.
Qed.

(** [includes] decides occurrence as a contiguous substring. *)
Lemma includes_spec (s t : string) :
  Js.includes s t = true <-> exists before after, s = before +:+ t +:+ after.
Proof.
  induction s as [|a s IH]; simpl.
  - destruct (Js.startsWith "" t) eqn:E.
    + apply startsWith_spec in E as [rest E].
      split; [intros _; exists "", rest; exact E | reflexivity].
    + split; [discriminate|]. intros (before & after & H).
      destruct before; simpl in H; [|discriminate H].
      assert (Js.startsWith "" t = true) as E'
          by (apply startsWith_spec; now exists after).
      congruence.
  - destruct (Js.startsWith (String a s) t) eqn:E.
    + apply startsWith_spec in E as [rest E].
      split; [intros _; exists "", rest; exact E | reflexivity].
    + rewrite IH. split.
      * intros (before & after & H). exists (String a before), after.
        simpl. now rewrite H.
      * intros (before & after & H). destruct before as [|c before]; simpl in H.
        -- assert (Js.startsWith (String a s) t = true) as E'
               by (apply startsWith_spec; now exists after).
           congruence.
        -- injection H as _ H. now exists before, after.
Qed.

Lemma includes_empty (s : string) : Js.includes s "" = true.
Proof. destruct s; reflexivity. Qed.

Lemma toLowerCase_empty {fold : Js.CaseFold} (q : string) :
  Js.toLowerCase q = "" <-> q = "".
Proof.
  split; [apply Js.toLowerCase_stays_non_empty|].
  intros ->. apply Js.toLowerCase_of_empty.
Qed.

Lemma includes_in_empty (t : string) : Js.includes "" t = true -> t = "".
Proof. destruct t; simpl; [reflexivity | discriminate]. Qed.

(** ** [Array.prototype.filter] *)

Section Filter.

Context {A : Type} (keep : A -> bool).

Lemma filter_sublist (l : list A) : List.filter keep l `sublist_of` l.
Proof.
  induction l as [|x l IH]; simpl; [constructor|].
  destruct (keep x); now constructor.
Qed.

Lemma filter_idempotent (l : list A) :
  List.filter keep (List.filter keep l) = List.filter keep l.
Proof.
  induction l as [|x l IH]; simpl; [reflexivity|].
  destruct (keep x) eqn:E; simpl; [rewrite E, IH|]; easy.
Qed.

Lemma filter_fixpoint (l : list A) :
  List.filter keep l = l <-> Forall (fun x => keep x = true) l.
Proof.
  induction l as [|x l IH]; simpl.
  - split; [constructor | reflexivity].
  - destruct (keep x) eqn:E.
    + split.
      * intros H. injection H as H. constructor; [exact E | now apply IH].
      * intros H. inversion H; subst. f_equal. now apply IH.
    + split.
      * intros H. pose proof (sublist_length _ _ (filter_sublist l)) as Hlen.
        rewrite H in Hlen. simpl in Hlen. lia.
      * intros H. inversion H; subst. congruence.
Qed.

End Filter.

(** ** The search filter *)

(** What the filter makes of one field: with the empty query, whether
    the field holds a non-empty string. *)
Lemma field_matches_empty_query {fold : Js.CaseFold} (field : option string) :
  field_matches field "" = Js.truthy_field field.
Proof.
  destruct field as [s|]; simpl; [|reflexivity].
  rewrite Js.toLowerCase_of_empty, includes_empty. now destruct s.
Qed.

Lemma field_matches_nonempty_query {fold : Js.CaseFold}
    (field : option string) (q : string) :
  q <> "" -> field_matches field q = true <-> contains_ci field q.
Proof.
  intros Hq. unfold field_matches, contains_ci.
  destruct field as [s|].
  - destruct s as [|c s]; simpl Js.truthy; cbv iota.
    + split; [discriminate|]. intros (s' & [= <-] & before & after & H).
      exfalso. apply Hq. apply toLowerCase_empty.
      apply includes_in_empty. apply includes_spec.
      rewrite Js.toLowerCase_of_empty in H. now exists before, after.
    + rewrite includes_spec. split.
      * intros H. now exists (String c s).
      * now intros (s' & [= <-] & H).
  - split; [discriminate|]. now intros (s' & [=] & _).
Qed.

(** C1, as stated, fails: with the empty query the filter drops a record
    that has neither name nor category. *)
Lemma empty_query_drops_untitled :
  filteredApps [untitled "7"] "" <> [untitled "7"].
Proof. discriminate. Qed.

(** C1 (amended): with the empty query the filter keeps, in order,
    exactly the records that have a non-empty name or a non-empty
    category; so [filteredApps L ""] is [L] itself if and only if every
    record of [L] has one of the two. *)
Theorem filteredApps_empty_query {fold : Js.CaseFold} (L : list AppRecord) :
  filteredApps L "" =
    List.filter (fun app => Js.truthy_field (name app) || Js.truthy_field (category app)) L
  /\ (filteredApps L "" = L <->
      Forall (fun app =>
                Js.truthy_field (name app) || Js.truthy_field (category app) = true) L).
Proof.
  assert (forall app, app_matches "" app =
                      Js.truthy_field (name app) || Js.truthy_field (category app)) as E.
  { intros app. unfold app_matches. now rewrite !field_matches_empty_query. }
  split.
  - unfold filteredApps. apply filter_ext. exact E.
  - unfold filteredApps. rewrite filter_fixpoint.
    split; intros H; (eapply Forall_impl; [exact H|]);
      intros app; cbn beta; rewrite E; trivial.
Qed.

(** C2, as stated, fails at the empty query: the record is in the list
    and the query is empty, yet the record is not in the result. *)
Lemma empty_query_membership_fails :
  ~ (In (untitled "7") (filteredApps [untitled "7"] "") <->
     ("" = "" \/ contains_ci (name (untitled "7")) "" \/
      contains_ci (category (untitled "7")) "")).
Proof. intros [_ H]. exact (H (or_introl eq_refl)). Qed.

(** C2 (amended): a record is in [filteredApps L q] if and only if it is
    in [L] and either [q] is empty and the record has a non-empty name or
    a non-empty category, or [q] is non-empty and the name or the
    category contains [q] case-insensitively.  A record with neither name
    nor category is in no result, whatever the query. *)
Theorem filteredApps_membership {fold : Js.CaseFold} (L : list AppRecord) (q : string) :
  (forall r,
      In r (filteredApps L q) <->
      In r L /\
      ((q = "" /\ (Js.truthy_field (name r) = true \/ Js.truthy_field (category r) = true))
       \/ (q <> "" /\ (contains_ci (name r) q \/ contains_ci (category r) q))))
  /\ Forall (fun r => is_Some (name r) \/ is_Some (category r)) (filteredApps L q).
Proof.
  assert (forall r, app_matches q r = true <->
    ((q = "" /\ (Js.truthy_field (name r) = true \/ Js.truthy_field (category r) = true))
     \/ (q <> "" /\ (contains_ci (name r) q \/ contains_ci (category r) q)))) as E.
  { intros r. unfold app_matches. rewrite orb_true_iff.
    destruct (string_dec q "") as [->|Hq].
    - rewrite !field_matches_empty_query. split; [left; easy|].
      intros [[_ H]|[H _]]; [exact H | congruence].
    - rewrite !(field_matches_nonempty_query _ q Hq). split; [right; easy|].
      intros [[H _]|[_ H]]; [congruence | exact H]. }
  split.
  - intros r. unfold filteredApps. rewrite filter_In, E. reflexivity.
  - apply Forall_forall. intros r Hr. apply list_elem_of_In in Hr.
    unfold filteredApps in Hr. apply filter_In in Hr as [_ Hr].
    unfold app_matches in Hr. apply orb_true_iff in Hr.
    destruct Hr as [Hr|Hr]; [left|right];
      (destruct (name r), (category r); simpl in Hr; eauto; discriminate).
Qed.

(** C7: filtering twice with one query is filtering once. *)
Theorem filteredApps_idempotent {fold : Js.CaseFold} (L : list AppRecord) (q : string) :
  filteredApps (filteredApps L q) q = filteredApps L q.
Proof. unfold filteredApps. apply filter_idempotent. Qed.

(** C8: the result of the filter is a subsequence of its input: the
    records that are kept stand in the order they had. *)
Theorem filteredApps_sublist {fold : Js.CaseFold} (L : list AppRecord) (q : string) :
  filteredApps L q `sublist_of` L.
Proof. unfold filteredApps. apply filter_sublist. Qed.

Example search_calc :
  map id (filteredApps [mapDoc calculator_doc] "calc") = ["1"]
  /\ filteredApps [mapDoc calculator_doc] "music" = []
  /\ empty_state
       (App (on_search_change "music" (on_snapshot [calculator_doc] initial_state)))
     = true.
Proof. repeat split; reflexivity. Qed.

Example search_is_case_insensitive :
  map id (filteredApps [mapDoc calculator_doc; mapDoc player_doc] "MUS") = ["2"]
  /\ map id (filteredApps [mapDoc calculator_doc; mapDoc player_doc] "l") = ["1"; "2"].
Proof. split; reflexivity. Qed.

(** ** The subscription callbacks *)

(** C3: a failure with message [m] sets [error] to [m] and [loading] to
    false and touches nothing else: the record list, the query and the
    selection are what they were, and the list is empty when the failure
    is the first thing to arrive. *)
Theorem on_error_effect (m : string) (st : State) :
  error (on_error m st) = Some m
  /\ loading (on_error m st) = false
  /\ apps (on_error m st) = apps st
  /\ searchTerm (on_error m st) = searchTerm st
  /\ selectedApp (on_error m st) = selectedApp st
  /\ apps (on_error m initial_state) = [].
Proof. repeat split; reflexivity. Qed.

Example permission_denied :
  on_error "permission-denied" initial_state =
  {| apps := []; loading := false; error := Some "permission-denied";
     searchTerm := ""; selectedApp := None |}.
Proof. reflexivity. Qed.

(** C4, as stated, fails: a snapshot that arrives while an error is set
    leaves the error set. *)
Lemma snapshot_keeps_error :
  error (on_snapshot [calculator_doc] (on_error "permission-denied" initial_state))
  <> None.
Proof. discriminate. Qed.

(** C4 (amended): a snapshot replaces the record list by the documents of
    the snapshot, each mapped to its id plus its fields (a stored field
    named id taking the place of the document id), position by position
    in the order of the snapshot, and clears the loading flag; the error,
    like the query and the selection, stays what it was. *)
Theorem on_snapshot_effect (docs : list Doc) (st : State) :
  apps (on_snapshot docs st) = map mapDoc docs
  /\ Forall2 record_of docs (apps (on_snapshot docs st))
  /\ (forall i : nat, apps (on_snapshot docs st) !! i = mapDoc <$> docs !! i)
  /\ loading (on_snapshot docs st) = false
  /\ error (on_snapshot docs st) = error st
  /\ searchTerm (on_snapshot docs st) = searchTerm st
  /\ selectedApp (on_snapshot docs st) = selectedApp st.
Proof.
  split; [reflexivity|]. split; [|split].
  - simpl. induction docs as [|doc docs IH]; simpl; constructor; [|exact IH].
    unfold record_of. simpl. destruct (d_id (doc_data doc)); repeat split.
  - intros i. simpl. apply list_lookup_fmap.
  - repeat split.
Qed.

(** A stored field named id shadows the document id. *)
Example stored_id_shadows_document_id :
  map id (apps (on_snapshot
                  [ {| doc_id := "1";
                       doc_data := with_stored_id (Some "same") (doc_data calculator_doc) |};
                    {| doc_id := "2";
                       doc_data := with_stored_id (Some "same") (doc_data player_doc) |} ]
                  initial_state))
  = ["same"; "same"].
Proof. reflexivity. Qed.

(** ** Rendering *)

(** C5, as stated, fails: after a first failure there is an error, and
    the empty-state message is shown all the same. *)
Lemma empty_state_shown_with_error :
  ~ (empty_state (App (on_error "permission-denied" initial_state)) = true <->
     (loading (on_error "permission-denied" initial_state) = false
      /\ error (on_error "permission-denied" initial_state) = None
      /\ filteredApps (apps (on_error "permission-denied" initial_state))
                      (searchTerm (on_error "permission-denied" initial_state)) = [])).
Proof.
  intros [H _]. specialize (H eq_refl) as (_ & H & _). discriminate H.
Qed.

(** C5 (amended): everything [App] shows apart from the search inputs is
    determined by (filtered list, loading, error, selected).  While
    loading is true the spinner stands in place of the grid; otherwise
    the grid holds one card per filtered record, in order, whether or not
    an error is set.  The banner is shown exactly when error is a
    non-empty message, and shows that message.  The empty-state message
    is shown exactly when loading is finished and the filtered list is
    empty, with or without an error. *)
Theorem App_render {fold : Js.CaseFold} (st : State) :
  (forall st', render_inputs st' = render_inputs st ->
               content (App st') = content (App st))
  /\ main_body (App st) =
       (if loading st then Spinner
        else Grid (map card_element (filteredApps (apps st) (searchTerm st))))
  /\ (forall cards, main_body (App st) = Grid cards ->
        map card_app cards = filteredApps (apps st) (searchTerm st))
  /\ (forall m, error_banner (App st) = Some m <-> error st = Some m /\ m <> "")
  /\ (empty_state (App st) = true <->
      loading st = false /\ filteredApps (apps st) (searchTerm st) = [])
  /\ details_modal (App st) = selectedApp st.
Proof.
  split; [|split; [|split; [|split; [|split]]]].
  - intros st' H. unfold render_inputs in H. injection H as H1 H2 H3 H4.
    unfold content, App; simpl. now rewrite H1, H2, H3, H4.
  - reflexivity.
  - intros cards. simpl. destruct (loading st); [discriminate|].
    intros [= <-]. rewrite map_map. apply map_id.
  - intros m. simpl. destruct (error st) as [e|].
    + destruct e as [|c e]; simpl.
      * split; [discriminate|]. intros [[= <-] Hm]. contradiction.
      * split; [intros [= <-]; split; [reflexivity | discriminate]|].
        now intros [[= <-] _].
    + split; [discriminate | now intros [[=] _]].
  - simpl. rewrite andb_true_iff, negb_true_iff, Nat.eqb_eq, length_zero_iff_nil.
    reflexivity.
  - reflexivity.
Qed.

(** Two states that differ in the catalogue and in the query and yet
    filter to the same list show the same content. *)
Lemma App_render_same_content :
  content (App (on_search_change "calc"
                  (on_snapshot [calculator_doc; player_doc] initial_state)))
  = content (App (on_search_change "OO"
                    (on_snapshot [calculator_doc] initial_state))).
Proof.
  apply (proj1 (App_render
                  (on_search_change "OO" (on_snapshot [calculator_doc] initial_state)))).
  reflexivity.
Defined.

(** ** The selection *)

(** Events of the subscription and of the search box leave
    [selectedApp] alone. *)
Lemma run_keeps_selection (evs : list Event) (st : State) :
  forallb keeps_selection evs = true ->
  selectedApp (run st evs) = selectedApp st.
Proof.
  revert st. induction evs as [|ev evs IH]; intros st H; [reflexivity|].
  simpl in H. apply andb_true_iff in H as [Hev Hevs].
  unfold run in *. simpl. rewrite (IH _ Hevs).
  destruct ev; simpl in Hev; try discriminate; reflexivity.
Qed.

(** C6: once a card is clicked, the modal is handed the record of that
    card, and keeps being handed that same record through any later
    snapshots (with or without a record of that id, with other fields
    under that id), failures and query edits; closing the modal clears
    the selection. *)
Theorem selection_survives_sync {fold : Js.CaseFold}
    (st : State) (app : AppRecord) (evs : list Event) :
  forallb keeps_selection evs = true ->
  selectedApp (run (on_card_click app st) evs) = Some app
  /\ details_modal (App (run (on_card_click app st) evs)) = Some app
  /\ details_modal (App (on_close (run (on_card_click app st) evs))) = None.
Proof.
  intros H. split; [|split].
  - now rewrite run_keeps_selection.
  - simpl. now rewrite run_keeps_selection.
  - reflexivity.
Qed.

(** The spec's scenario: the record of id "2" is open, then a snapshot
    without id "2" arrives. *)
Lemma selection_survives_removal :
  map id (apps (run (on_card_click (mapDoc player_doc) two_apps_loaded)
                    [Snapshot [calculator_doc]])) = ["1"]
  /\ selectedApp (run (on_card_click (mapDoc player_doc) two_apps_loaded)
                      [Snapshot [calculator_doc]]) = Some (mapDoc player_doc)
  /\ details_modal (App (run (on_card_click (mapDoc player_doc) two_apps_loaded)
                             [Snapshot [calculator_doc]])) = Some (mapDoc player_doc)
  /\ details_modal (App (on_close (run (on_card_click (mapDoc player_doc) two_apps_loaded)
                                       [Snapshot [calculator_doc]]))) = None.
Proof.
  split; [reflexivity|].
  apply (selection_survives_sync two_apps_loaded (mapDoc player_doc)
           [Snapshot [calculator_doc]]).
  reflexivity.
Defined.

(** ** The downloads line of a card *)

Lemma length_append (a b : string) :
  String.length (a +:+ b) = (String.length a + String.length b)%nat.
Proof. induction a as [|c a IH]; simpl; [reflexivity | now rewrite IH]. Qed.

(** " downloads" appended to anything is not the text of the other arm. *)
Lemma downloads_suffix_not_new_release (s : string) :
  s +:+ " downloads" <> "New Release".
Proof.
  destruct s as [|c1 [|c2 s]]; simpl; try discriminate.
  intros H. apply (f_equal String.length) in H.
  simpl in H. rewrite length_append in H. simpl in H. lia.
Qed.

(** C9: the card of a record without [downloads] reads "New Release"
    where the count would be; the card of a record with
    [downloads = 12000] reads "12,000 downloads". *)
Theorem card_downloads_scenario (formatBytes : option Z -> string) (app : AppRecord) :
  cv_downloads (AppCard formatBytes (with_downloads None app)) = "New Release"
  /\ cv_downloads (AppCard formatBytes (with_downloads (Some 12000) app))
     = "12,000 downloads"
  /\ cv_downloads (AppCard formatBytes (mapDoc calculator_doc)) = "New Release"
  /\ cv_downloads (AppCard formatBytes (mapDoc player_doc)) = "12,000 downloads".
Proof. repeat split; reflexivity. Qed.

(** C10: the card of a record with [downloads = 0] reads "New Release",
    not "0 downloads".  Which of the two texts a card carries is decided
    by [downloads > 0] alone, so the card of a record whose count is zero
    is the card the record would have without a count. *)
Theorem card_downloads_zero (formatBytes : option Z -> string) (app : AppRecord) :
  cv_downloads (AppCard formatBytes (with_downloads (Some 0) app)) = "New Release"
  /\ cv_downloads (AppCard formatBytes (with_downloads (Some 0) app)) <> "0 downloads"
  /\ AppCard formatBytes (with_downloads (Some 0) app)
     = AppCard formatBytes (with_downloads None app)
  /\ (cv_downloads (AppCard formatBytes app) = "New Release"
      <-> downloads_positive (downloads app) = false).
Proof.
  split; [reflexivity|]. split; [discriminate|]. split; [reflexivity|].
  simpl. unfold downloads_text, downloads_positive.
  destruct (downloads app) as [n|]; [|easy].
  destruct (0 <? n); [|easy].
  split; [|discriminate]. intros H.
  now apply downloads_suffix_not_new_release in H.
Qed.

(** * Further properties *)

(** ** The state over a run of events *)

Lemma run_app (st : State) (evs evs' : list Event) :
  run st (evs ++ evs') = run (run st evs) evs'.
Proof. unfold run. apply fold_left_app. Qed.

Lemma run_cons (st : State) (ev : Event) (evs : list Event) :
  run st (ev :: evs) = run (step st ev) evs.
Proof. reflexivity. Qed.

Lemma step_loading (st : State) (ev : Event) :
  loading (step st ev) = loading st && negb (is_sync_result ev).
Proof. destruct ev; simpl; now rewrite ?andb_true_r, ?andb_false_r. Qed.

(** Without a snapshot the list stays; without a failure the error stays. *)
Lemma run_apps_frame (evs : list Event) (st : State) :
  existsb is_snapshot evs = false -> apps (run st evs) = apps st.
Proof.
  revert st. induction evs as [|ev evs IH]; intros st H; [reflexivity|].
  simpl in H. apply orb_false_iff in H as [Hev Hevs].
  rewrite run_cons, (IH _ Hevs). destruct ev; simpl in Hev; easy.
Qed.

Lemma run_error_frame (evs : list Event) (st : State) :
  existsb is_failure evs = false -> error (run st evs) = error st.
Proof.
  revert st. induction evs as [|ev evs IH]; intros st H; [reflexivity|].
  simpl in H. apply orb_false_iff in H as [Hev Hevs].
  rewrite run_cons, (IH _ Hevs). destruct ev; simpl in Hev; easy.
Qed.

Lemma run_nothing_arrived (evs : list Event) (st : State) :
  nothing_arrived st -> nothing_arrived (run st evs).
Proof.
  revert st. induction evs as [|ev evs IH]; intros st Hst; [exact Hst|].
  rewrite run_cons. apply IH. unfold nothing_arrived in *.
  destruct ev; simpl; try discriminate; exact Hst.
Qed.

(** X3: [loading] is true exactly until the first snapshot or failure:
    after a run of events it is true if and only if it was true before
    and the run holds neither a snapshot nor a failure.  Nothing turns it
    on again. *)
Theorem loading_until_first_result (st : State) (evs : list Event) :
  loading (run st evs) = loading st && negb (existsb is_sync_result evs).
Proof.
  revert st. induction evs as [|ev evs IH]; intros st.
  - simpl. now rewrite andb_true_r.
  - rewrite run_cons, IH, step_loading. simpl.
    rewrite negb_orb. now rewrite andb_assoc.
Qed.

(** X4: in every state reached from the initial one, the spinner is on
    screen only while nothing has arrived: the list is still empty and no
    error is set, so the spinner never shares the screen with the error
    banner, with the empty-state message or with a non-zero counter. *)
Theorem spinner_means_nothing_arrived {fold : Js.CaseFold} (evs : list Event) :
  main_body (App (run initial_state evs)) = Spinner ->
  apps (run initial_state evs) = []
  /\ error (run initial_state evs) = None
  /\ error_banner (App (run initial_state evs)) = None
  /\ empty_state (App (run initial_state evs)) = false
  /\ apps_available (App (run initial_state evs)) = 0%nat.
Proof.
  intros H.
  assert (loading (run initial_state evs) = true) as Hl.
  { simpl in H. now destruct (loading (run initial_state evs)). }
  destruct (run_nothing_arrived evs initial_state) as [Ha He];
    [intros _; split; reflexivity | exact Hl |].
  split; [exact Ha|]. split; [exact He|]. simpl.
  rewrite Ha, He, Hl. repeat split; reflexivity.
Qed.

Lemma spinner_while_typing :
  apps (run initial_state [SearchChange "mus"; ModalClose]) = []
  /\ error (run initial_state [SearchChange "mus"; ModalClose]) = None
  /\ error_banner (App (run initial_state [SearchChange "mus"; ModalClose])) = None
  /\ empty_state (App (run initial_state [SearchChange "mus"; ModalClose])) = false
  /\ apps_available (App (run initial_state [SearchChange "mus"; ModalClose])) = 0%nat.
Proof. apply spinner_means_nothing_arrived. reflexivity. Defined.

(** X5: the list is that of the latest snapshot: events that are no
    snapshots leave it alone, and after a snapshot followed by such events
    it is the mapped documents of that snapshot, whatever came earlier;
    nothing of an earlier snapshot is merged in. *)
Theorem latest_snapshot_wins (st : State) (later : list Event) :
  existsb is_snapshot later = false ->
  apps (run st later) = apps st
  /\ forall earlier docs,
       apps (run st (earlier ++ Snapshot docs :: later)) = map mapDoc docs.
Proof.
  intros H. split; [now apply run_apps_frame|].
  intros earlier docs. rewrite run_app, run_cons. now rewrite run_apps_frame.
Qed.

Lemma latest_snapshot_wins_example :
  apps (run two_apps_loaded [SearchChange "x"; SubscriptionError "offline"])
  = apps two_apps_loaded
  /\ forall earlier docs,
       apps (run two_apps_loaded
               (earlier ++ Snapshot docs :: [SearchChange "x"; SubscriptionError "offline"]))
       = map mapDoc docs.
Proof. apply latest_snapshot_wins. reflexivity. Defined.

(** X6: the error is the message of the latest failure: events that are
    no failures leave it alone (so an error, once set, is never cleared,
    and none appears by itself), and after a failure followed by such
    events it is the message of that failure. *)
Theorem latest_failure_wins (st : State) (later : list Event) :
  existsb is_failure later = false ->
  error (run st later) = error st
  /\ forall earlier m,
       error (run st (earlier ++ SubscriptionError m :: later)) = Some m.
Proof.
  intros H. split; [now apply run_error_frame|].
  intros earlier m. rewrite run_app, run_cons. now rewrite run_error_frame.
Qed.

Lemma latest_failure_wins_example :
  error (run initial_state [Snapshot [calculator_doc]; SearchChange "c"])
  = error initial_state
  /\ forall earlier m,
       error (run initial_state
                (earlier ++ SubscriptionError m
                   :: [Snapshot [calculator_doc]; SearchChange "c"])) = Some m.
Proof. apply latest_failure_wins. reflexivity. Defined.

(** ** Cards and selection *)

Lemma sublist_map {A B : Type} (f : A -> B) (l1 l2 : list A) :
  l1 `sublist_of` l2 -> map f l1 `sublist_of` map f l2.
Proof. induction 1; simpl; now constructor. Qed.



(** X8: every card on screen stands for a record of the current list
    that passes the current query, is keyed by the id of that record,
    and a click on it opens the modal on that very record. *)
Theorem card_on_screen {fold : Js.CaseFold} (st : State) (c : CardElement) :
  In c (cards_of (main_body (App st))) ->
  In (card_app c) (apps st)
  /\ app_matches (searchTerm st) (card_app c) = true
  /\ card_key c = id (card_app c)
  /\ details_modal (App (on_card_click (card_app c) st)) = Some (card_app c).
Proof.
  simpl. destruct (loading st); simpl; [contradiction|].
  rewrite in_map_iff. intros (app & <- & Happ).
  unfold filteredApps in Happ. apply filter_In in Happ as [Hin Hm].
  repeat split; assumption.
Qed.

Lemma card_on_screen_example :
  In (mapDoc player_doc) (apps (on_search_change "mus" two_apps_loaded))
  /\ app_matches (searchTerm (on_search_change "mus" two_apps_loaded))
                 (mapDoc player_doc) = true
  /\ card_key (card_element (mapDoc player_doc)) = id (mapDoc player_doc)
  /\ details_modal (App (on_card_click (mapDoc player_doc)
                           (on_search_change "mus" two_apps_loaded)))
     = Some (mapDoc player_doc).
Proof.
  apply (card_on_screen (on_search_change "mus" two_apps_loaded)
           (card_element (mapDoc player_doc))).
  simpl. left. reflexivity.
Defined.

Lemma mapDoc_ids (docs : list Doc) :
  Forall (fun doc => d_id (doc_data doc) = None) docs ->
  map id (map mapDoc docs) = map doc_id docs.
Proof.
  induction 1 as [|doc docs Hdoc _ IH]; simpl; [reflexivity|].
  now rewrite Hdoc, IH.
Qed.

(** X9: when the documents of a snapshot have pairwise different ids and
    none of them stores a field named id, the cards on screen have
    pairwise different keys, whatever the query typed afterwards. *)
Theorem card_keys_unique {fold : Js.CaseFold} (docs : list Doc) (st : State) (q : string) :
  NoDup (map doc_id docs) ->
  Forall (fun doc => d_id (doc_data doc) = None) docs ->
  NoDup (map card_key
           (cards_of (main_body (App (on_search_change q (on_snapshot docs st)))))).
Proof.
  intros H Hstored. simpl. rewrite map_map. simpl.
  eapply sublist_NoDup; [|apply sublist_map, filter_sublist].
  now rewrite mapDoc_ids.
Qed.

Lemma card_keys_unique_example :
  NoDup (map card_key
           (cards_of (main_body
              (App (on_search_change "a"
                      (on_snapshot [calculator_doc; player_doc] initial_state)))))).
Proof.
  apply card_keys_unique.
  - simpl.
    apply NoDup_cons; split; [|apply NoDup_cons; split; [|apply NoDup_nil; exact I]].
    + intros H%list_elem_of_In. simpl in H. destruct H as [H|[]]. discriminate H.
    + intros H%list_elem_of_In. destruct H.
  - repeat constructor.
Defined.

(** X10: the empty-state message is on screen exactly when the grid is
    on screen and has no card; and whenever the grid is on screen the
    counter above it is the number of its cards. *)
Theorem empty_state_iff_empty_grid {fold : Js.CaseFold} (st : State) :
  (empty_state (App st) = true <-> main_body (App st) = Grid [])
  /\ (forall cards, main_body (App st) = Grid cards ->
                    apps_available (App st) = length cards).
Proof.
  simpl. split.
  - destruct (loading st); simpl; [split; discriminate|].
    rewrite Nat.eqb_eq, length_zero_iff_nil. split.
    + now intros ->.
    + intros [= H]. now apply map_eq_nil in H.
  - intros cards. destruct (loading st); [discriminate|].
    intros [= <-]. now rewrite length_map.
Qed.

(** ** The card and the modal of one record *)

Lemma or_else_not_empty (field : option string) (fallback : string) :
  fallback <> "" -> or_else field fallback <> "".
Proof.
  intros H. unfold or_else. destruct field as [[|c s]|]; simpl; easy.
Qed.

Lemma or_else_truthy (field : option string) (fallback : string) :
  Js.truthy_field field = true -> Some (or_else field fallback) = field.
Proof. destruct field as [[|c s]|]; simpl; easy. Qed.

Lemma or_else_falsy (field : option string) (fallback : string) :
  Js.truthy_field field = false -> or_else field fallback = fallback.
Proof. destruct field as [[|c s]|]; simpl; easy. Qed.

(** X11: no text of a card is ever blank, whatever the record lacks:
    title, category, icon address, description and downloads line are
    non-empty, and the version line is the letter v followed by a
    non-empty version. *)
Theorem card_never_blank (formatBytes : option Z -> string) (app : AppRecord) :
  cv_title (AppCard formatBytes app) <> ""
  /\ cv_category (AppCard formatBytes app) <> ""
  /\ cv_icon (AppCard formatBytes app) <> ""
  /\ cv_description (AppCard formatBytes app) <> ""
  /\ cv_downloads (AppCard formatBytes app) <> ""
  /\ exists number, number <> ""
                    /\ cv_version (AppCard formatBytes app) = String "v" number.
Proof.
  simpl. repeat split; try (apply or_else_not_empty; discriminate).
  - unfold downloads_text. destruct (downloads app) as [n|]; [|discriminate].
    destruct (0 <? n); [|discriminate].
    intros H. apply (f_equal String.length) in H.
    rewrite length_append in H. simpl in H. lia.
  - exists (or_else (version app) "1.0").
    split; [apply or_else_not_empty; discriminate | reflexivity].
Qed.

(** X12: the modal and the card of one record agree on the icon, its
    alternative text, the version line, the size and the description.
    They show the same category exactly when the record has a non-empty
    one (the card falls back to "Utility", the modal to "App"), and the
    modal title is the card title exactly when the record has a non-empty
    name (the modal title has no fallback). *)
Theorem modal_agrees_with_card
    (formatBytes : option Z -> string) (formatNumber_undefined : string)
    (toLocaleDateString : Z -> string) (app : AppRecord) :
  md_icon (AppDetailsModal formatBytes formatNumber_undefined toLocaleDateString app)
    = cv_icon (AppCard formatBytes app)
  /\ md_alt (AppDetailsModal formatBytes formatNumber_undefined toLocaleDateString app)
    = cv_alt (AppCard formatBytes app)
  /\ md_version (AppDetailsModal formatBytes formatNumber_undefined toLocaleDateString app)
    = cv_version (AppCard formatBytes app)
  /\ md_size (AppDetailsModal formatBytes formatNumber_undefined toLocaleDateString app)
    = cv_size (AppCard formatBytes app)
  /\ md_description (AppDetailsModal formatBytes formatNumber_undefined toLocaleDateString app)
    = cv_description (AppCard formatBytes app)
  /\ (md_category (AppDetailsModal formatBytes formatNumber_undefined toLocaleDateString app)
      = cv_category (AppCard formatBytes app)
      <-> Js.truthy_field (category app) = true)
  /\ (md_title (AppDetailsModal formatBytes formatNumber_undefined toLocaleDateString app)
      = Some (cv_title (AppCard formatBytes app))
      <-> Js.truthy_field (name app) = true).
Proof.
  simpl. repeat split; try reflexivity.
  - destruct (category app) as [[|c s]|]; simpl; easy.
  - destruct (category app) as [[|c s]|]; simpl; easy.
  - destruct (name app) as [[|c s]|]; simpl; easy.
  - intros H. symmetry. now apply or_else_truthy.
Qed.

(** X13: for a record with a positive count, the downloads line of the
    card is the downloads figure of the modal followed by " downloads". *)
Theorem card_downloads_is_modal_figure
    (formatBytes : option Z -> string) (formatNumber_undefined : string)
    (toLocaleDateString : Z -> string) (app : AppRecord) :
  downloads_positive (downloads app) = true ->
  cv_downloads (AppCard formatBytes app)
  = md_downloads (AppDetailsModal formatBytes formatNumber_undefined
                    toLocaleDateString app) +:+ " downloads".
Proof.
  simpl. unfold downloads_positive, downloads_text.
  destruct (downloads app) as [n|]; [|discriminate].
  now intros ->.
Qed.

Lemma card_downloads_is_modal_figure_player :
  cv_downloads (AppCard (fun _ => "50 MB") (mapDoc player_doc))
  = md_downloads (AppDetailsModal (fun _ => "50 MB") "0" (fun _ => "1/1/2024")
                    (mapDoc player_doc)) +:+ " downloads".
Proof. apply card_downloads_is_modal_figure. reflexivity. Defined.

Example screenshot_alt_counts_from_one :
  screenshot_alt 0 = "Screenshot 1" /\ screenshot_alt 9 = "Screenshot 10".
Proof. split; reflexivity. Qed.

(** X14: the screenshots section of the modal is left out exactly when
    the record has no screenshot list or an empty one; otherwise it holds
    one image per address, in the order of the list, keyed by position
    from 0 and described by position from 1. *)
Theorem modal_screenshots
    (formatBytes : option Z -> string) (formatNumber_undefined : string)
    (toLocaleDateString : Z -> string) (app : AppRecord) :
  (md_screenshots (AppDetailsModal formatBytes formatNumber_undefined
                     toLocaleDateString app) = None
   <-> screenshot_urls app = None \/ screenshot_urls app = Some [])
  /\ forall images,
       md_screenshots (AppDetailsModal formatBytes formatNumber_undefined
                         toLocaleDateString app) = Some images ->
       screenshot_urls app = Some (map shot_src images)
       /\ map shot_key images = seq 0 (length images)
       /\ map shot_alt images = map screenshot_alt (seq 0 (length images)).
Proof.
  simpl. unfold screenshots_section.
  destruct (screenshot_urls app) as [urls|].
  - destruct urls as [|u urls].
    + simpl. split; [split; auto | discriminate].
    + change (0 <? length (u :: urls))%nat with true. cbv iota. split.
      * split; [discriminate | intros [|]; discriminate].
      * intros images [= <-]. unfold screenshot_images.
        rewrite length_imap. generalize (u :: urls) as l. intros l.
        repeat split.
        -- f_equal. apply list_eq. intros i.
           rewrite list_lookup_fmap, list_lookup_imap.
           now destruct (l !! i).
        -- apply list_eq. intros i.
           rewrite list_lookup_fmap, list_lookup_imap.
           destruct (l !! i) eqn:E.
           ++ apply lookup_lt_Some in E. now rewrite lookup_seq_lt.
           ++ apply lookup_ge_None in E. now rewrite lookup_seq_ge.
        -- apply list_eq. intros i.
           rewrite !list_lookup_fmap, list_lookup_imap.
           destruct (l !! i) eqn:E.
           ++ apply lookup_lt_Some in E. now rewrite lookup_seq_lt.
           ++ apply lookup_ge_None in E. now rewrite lookup_seq_ge.
  - split; [split; auto | discriminate].
Qed.

(** X15: a creation time of 0 seconds is shown like a missing one: the
    modal of a record created at second 0 is the modal the record would
    have without a creation time, with "Recently" in the Released row;
    any other number of seconds is handed to the date formatter as
    milliseconds. *)
Theorem modal_release_date
    (formatBytes : option Z -> string) (formatNumber_undefined : string)
    (toLocaleDateString : Z -> string) (app : AppRecord) :
  AppDetailsModal formatBytes formatNumber_undefined toLocaleDateString
    (with_created_at (Some 0) app)
  = AppDetailsModal formatBytes formatNumber_undefined toLocaleDateString
      (with_created_at None app)
  /\ releaseDate toLocaleDateString (with_created_at None app) = "Recently"
  /\ (forall seconds, seconds <> 0 ->
        releaseDate toLocaleDateString (with_created_at (Some seconds) app)
        = toLocaleDateString (seconds * 1000))
  /\ map ir_value
       (md_info (AppDetailsModal formatBytes formatNumber_undefined
                   toLocaleDateString app))
     = [Some (releaseDate toLocaleDateString app); Some "Free"; category app].
Proof.
  repeat split. intros seconds H. unfold releaseDate. simpl.
  destruct (Z.eqb_spec seconds 0); [contradiction | reflexivity].
Qed.
